(** * Sentiment-analysis front-ends: [api.py] and [feedback-classifier-gradio/app.py]

    Both files are glue around one call of a pretrained text-classification
    pipeline.  The embedding below keeps the shape of the Python code:

    - a Python [str] is the Rocq [string] of its UTF-8 encoding, so a string
      literal here denotes the Python string written the same way.  The case
      mappings of [str.capitalize], [str.lower] and [str.upper] are tabulated
      for the code points below U+0100 (ASCII and Latin-1), as the Unicode
      character database has them; statements about case conversion are made
      for texts of such characters;
    - a Python [float] is an IEEE-754 datum ([spec_float]): signed zeros,
      infinities, NaN and finite numbers [m * 2^e];
    - a call that may raise is an [outcome]; handlers run in the monad [py],
      which threads the process state ([os.environ] and the log of pipeline
      invocations) and propagates exceptions;
    - the pretrained pipeline is not code of this repository: the factory
      [pipeline] is a section variable.  The import statements, the factory
      and the classifier it returns are library code running inside the
      process, so each may consult [os.environ]: they take the environment as
      an argument. *)

From Stdlib Require Import ZArith String Ascii List Lia.
From Stdlib Require Import Floats.SpecFloat.
From stdpp Require Import base option strings gmap pretty.

Local Open Scope string_scope.
Local Open Scope Z_scope.

(** ** Python values *)

Abbreviation float := spec_float.

(** An exception object: its class and its message. *)
Record exn := Exn { exc_class : string; exc_msg : string }.

(** What [l[0]] raises on an empty list. *)
Definition IndexError : exn := Exn "IndexError" "list index out of range".

(** The result of evaluating a Python expression. *)
Inductive outcome (A : Type) : Type :=
| Returned (a : A)
| Raised (e : exn).
Arguments Returned {A} a.
Arguments Raised {A} e.

(** *** [str] methods *)

Definition newline : string := String "010"%char EmptyString.

Definition ascii_upper (c : ascii) : ascii :=
  let n := N_of_ascii c in
  if ((97 <=? n) && (n <=? 122))%N then ascii_of_N (n - 32) else c.

Definition ascii_lower (c : ascii) : ascii :=
  let n := N_of_ascii c in
  if ((65 <=? n) && (n <=? 90))%N then ascii_of_N (n + 32) else c.

(** Code points of a text all of whose characters are below U+0100, read off
    its UTF-8 encoding: one byte below 128, or 0xC2/0xC3 and a continuation
    byte.  [None] for any other text. *)
Fixpoint latin1_codepoints (s : string) : option (list N) :=
  match s with
  | EmptyString => Some []
  | String b r =>
      let n := N_of_ascii b in
      if (n <? 128)%N then cons n <$> latin1_codepoints r
      else if ((n =? 194) || (n =? 195))%N then
        match r with
        | String b' r' =>
            let n' := N_of_ascii b' in
            if ((128 <=? n') && (n' <? 192))%N
            then cons ((n - 192) * 64 + (n' - 128))%N <$> latin1_codepoints r'
            else None
        | EmptyString => None
        end
      else None
  end.

(** UTF-8 encoding of one code point, and of a sequence of them. *)
Definition utf8_char (c : N) : string :=
  if (c <? 128)%N then String (ascii_of_N c) EmptyString
  else if (c <? 2048)%N then
    String (ascii_of_N (192 + c / 64)) (String (ascii_of_N (128 + c mod 64)) EmptyString)
  else if (c <? 65536)%N then
    String (ascii_of_N (224 + c / 4096))
      (String (ascii_of_N (128 + c / 64 mod 64))
         (String (ascii_of_N (128 + c mod 64)) EmptyString))
  else
    String (ascii_of_N (240 + c / 262144))
      (String (ascii_of_N (128 + c / 4096 mod 64))
         (String (ascii_of_N (128 + c / 64 mod 64))
            (String (ascii_of_N (128 + c mod 64)) EmptyString))).

Fixpoint utf8 (cs : list N) : string :=
  match cs with
  | [] => EmptyString
  | c :: r => utf8_char c +:+ utf8 r
  end.

(** Lowercase mapping of a code point below U+0100: A-Z, and the capital
    letters U+00C0-U+00DE except the multiplication sign U+00D7. *)
Definition lower_cp (c : N) : N :=
  if ((65 <=? c) && (c <=? 90))%N then (c + 32)%N
  else if ((192 <=? c) && (c <=? 222) && negb (c =? 215))%N then (c + 32)%N
  else c.

(** Uppercase mapping of a code point below U+0100.  The micro sign goes
    to U+039C, y with diaeresis to U+0178, and sharp s to the two letters
    SS. *)
Definition upper_cp (c : N) : list N :=
  if ((97 <=? c) && (c <=? 122))%N then [(c - 32)%N]
  else if (c =? 181)%N then [924%N]
  else if (c =? 223)%N then [83%N; 83%N]
  else if ((224 <=? c) && (c <=? 254) && negb (c =? 247))%N then [(c - 32)%N]
  else if (c =? 255)%N then [376%N]
  else [c].

(** Titlecase mapping of a code point below U+0100: sharp s goes to Ss. *)
Definition title_cp (c : N) : list N :=
  if (c =? 223)%N then [83%N; 115%N]
  else if (c =? 181)%N then [924%N]
  else if (c =? 255)%N then [376%N]
  else if ((c <? 97) || ((122 <? c) && (c <? 224)) || (c =? 247))%N then [c]
  else [(c - 32)%N].

(** Conversion of the ASCII letters alone, byte by byte. *)
Fixpoint ascii_lower_bytes (s : string) : string :=
  match s with
  | EmptyString => EmptyString
  | String c r => String (ascii_lower c) (ascii_lower_bytes r)
  end.

Fixpoint ascii_upper_bytes (s : string) : string :=
  match s with
  | EmptyString => EmptyString
  | String c r => String (ascii_upper c) (ascii_upper_bytes r)
  end.

(** [s.lower()].  For a text with a character from U+0100 on, whose
    mappings are not tabulated here, only the ASCII letters are converted. *)
Definition lower (s : string) : string :=
  match latin1_codepoints s with
  | Some cs => utf8 (lower_cp <$> cs)
  | None => ascii_lower_bytes s
  end.

(** [s.upper()], with the same proviso. *)
Definition upper (s : string) : string :=
  match latin1_codepoints s with
  | Some cs => utf8 (cs ≫= upper_cp)
  | None => ascii_upper_bytes s
  end.

(** [s.capitalize()]: the first character goes to titlecase and the others
    to lowercase.  The same proviso applies. *)
Definition capitalize (s : string) : string :=
  match latin1_codepoints s with
  | Some [] => EmptyString
  | Some (c :: r) => utf8 (title_cp c ++ (lower_cp <$> r))
  | None =>
      match s with
      | EmptyString => EmptyString
      | String b r => String (ascii_upper b) (ascii_lower_bytes r)
      end
  end.

(** *** [float] formatting and comparison *)

(** The integer nearest to [n / d] (for [0 < d]), a tie going to the even
    neighbour. *)
Definition round_half_even (n d : Z) : Z :=
  let q := n / d in
  match 2 * (n mod d) ?= d with
  | Lt => q
  | Gt => q + 1
  | Eq => if Z.even q then q else q + 1
  end.

(** [m * 2^e] in units of [10^-4], correctly rounded. *)
Definition scaled4 (m : positive) (e : Z) : Z :=
  if 0 <=? e then Z.pos m * 2 ^ e * 10000
  else round_half_even (Z.pos m * 10000) (2 ^ (- e)).

Definition digit (d : Z) : ascii := ascii_of_N (48 + Z.to_N d).

(** A count [n] of ten-thousandths printed in fixed notation. *)
Definition fixed4 (n : Z) : string :=
  pretty (Z.to_N (n / 10000)) +:+ "." +:+
  String (digit (n / 1000 mod 10)) (String (digit (n / 100 mod 10))
    (String (digit (n / 10 mod 10)) (String (digit (n mod 10)) EmptyString))).

Definition sign_prefix (s : bool) : string := if s then "-" else "".

(** [format(x, '.4f')], the conversion an f-string applies for [{x:.4f}]. *)
Definition format_4f (x : float) : string :=
  match x with
  | S754_nan => "nan"
  | S754_infinity s => sign_prefix s +:+ "inf"
  | S754_zero s => sign_prefix s +:+ "0.0000"
  | S754_finite s m e => sign_prefix s +:+ fixed4 (scaled4 m e)
  end.

(** [0.0 <= x <= 1.0] *)
Definition in_unit_interval (x : float) : bool :=
  match x with
  | S754_zero _ => true
  | S754_finite false m e =>
      if 0 <=? e then Z.pos m * 2 ^ e <=? 1 else Z.pos m <=? 2 ^ (- e)
  | _ => false
  end.

(** ** Process state and the handler monad *)

Record process := Process {
  environ : gmap string string;      (* os.environ *)
  pipeline_calls : list string       (* texts the classifier was invoked on, oldest first *)
}.

Definition py (A : Type) : Type := process → outcome A * process.

#[global] Instance py_ret : MRet py := λ A (a : A) s, (Returned a, s).

#[global] Instance py_bind : MBind py := λ A B (k : A → py B) (m : py A) s,
  match m s with
  | (Returned a, s') => k a s'
  | (Raised e, s') => (Raised e, s')
  end.

Definition raise {A : Type} (e : exn) : py A := λ s, (Raised e, s).

(** [os.environ[k] = v] *)
Definition environ_setitem (k v : string) : py unit := λ s,
  (Returned tt, Process (<[k := v]> (environ s)) (pipeline_calls s)).

(** [l[0]] *)
Definition getitem0 {A : Type} (l : list A) : py A :=
  match l with
  | x :: _ => mret x
  | [] => raise IndexError
  end.

(** The process state once the classifier has been invoked on [text]. *)
Definition logged (text : string) (s : process) : process :=
  Process (environ s) (pipeline_calls s ++ [text]).

(** ** The pipeline of the [transformers] library *)

Module Transformers.

(** One element of the list a text-classification pipeline returns:
    the dict [{'label': ..., 'score': ...}]. *)
Record Prediction := { label : string; score : float }.

(** A loaded pipeline object: called on one text, in the environment of
    the process. *)
Definition Classifier : Type :=
  gmap string string → string → outcome (list Prediction).

(** The factory [pipeline(task, model=...)]; loading may fail. *)
Definition Factory : Type :=
  gmap string string → string → string → outcome Classifier.

(** [pipeline(task, model=model)] *)
Definition load (pipeline : Factory) (task model : string) : py Classifier := λ s,
  (pipeline (environ s) task model, s).

(** What the import statements at the head of a front-end do: library code
    runs in the environment of the process and, unless it raises, leaves the
    factory [pipeline] bound. *)
Definition Importer : Type := gmap string string → outcome Factory.

(** [from transformers import pipeline], with the imports around it. *)
Definition import_ (imports : Importer) : py Factory := λ s,
  (imports (environ s), s).

(** [classifier(text)]: the invocation is logged, whatever its outcome. *)
Definition call (classifier : Classifier) (text : string) : py (list Prediction) := λ s,
  (classifier (environ s) text, logged text s).

End Transformers.

(** ** JSON request bodies *)

#[local] Unset Elimination Schemes.
Inductive json : Type :=
| JNull
| JBool (b : bool)
| JInt (n : Z)
| JFloat (x : float)
| JString (s : string)
| JArray (items : list json)
| JObject (members : list (string * json)).
#[local] Set Elimination Schemes.

(** Member [k] of an object, the last occurrence of a repeated key winning
    (as in the [dict] that [json.loads] builds). *)
Fixpoint json_get (k : string) (members : list (string * json)) : option json :=
  match members with
  | [] => None
  | (k', v) :: rest =>
      match json_get k rest with
      | Some v' => Some v'
      | None => if String.eqb k' k then Some v else None
      end
  end.

(** Field [k] of a JSON value; only objects have fields. *)
Definition json_field (k : string) (j : json) : option json :=
  match j with
  | JObject members => json_get k members
  | _ => None
  end.

(** The bytes of a request body either parse as JSON or do not. *)
Inductive request_body : Type :=
| Malformed
| Json (j : json).

(** ** [api.py] *)

Module Api.

(** [class Feedback(BaseModel): text: str] *)
Record Feedback := { text : string }.

(** The dict returned by the endpoint. *)
Record Response := { feedback : string; sentiment : string; score : float }.

Inductive http_response : Type :=
| HTTP_200 (body : Response)
| HTTP_422.

Definition status_code (r : http_response) : Z :=
  match r with
  | HTTP_200 _ => 200
  | HTTP_422 => 422
  end.

(** Modelled from the spec: the validation that the web framework runs
    for a parameter of type [Feedback] is not in the repository.  The
    class declares one required field, [text: str]; the spec's data model
    says "No validation beyond 'is a string'", and its endpoint section
    that a missing field fails validation. *)
Definition Feedback_validate (j : json) : option Feedback :=
  match json_field "text" j with
  | Some (JString t) => Some {| text := t |}
  | _ => None
  end.

Section WithClassifier.

(** The module global [classifier]. *)
Variable classifier : Transformers.Classifier.

Definition analyze_feedback (feedback : Feedback) : py Response :=
  results ← Transformers.call classifier (text feedback);
  result ← getitem0 results;
  mret {| feedback := text feedback;
          sentiment := Transformers.label result;
          score := Transformers.score result |}.

(** Modelled from the spec: the routing that [@app.post("/analyze")]
    installs is the web framework's, not the repository's.  "Malformed
    JSON or missing field: fails with a request-validation error
    (422-class)"; "On success, returns 200 with [{feedback, sentiment,
    score}]".  An exception of the handler is not caught here. *)
Definition post_analyze (body : request_body) : py http_response :=
  match body with
  | Malformed => mret HTTP_422
  | Json j =>
      match Feedback_validate j with
      | None => mret HTTP_422
      | Some feedback => r ← analyze_feedback feedback; mret (HTTP_200 r)
      end
  end.

End WithClassifier.

Section Startup.

Variable pipeline : Transformers.Factory.

(** The statements of the module body that follow the imports, in order,
    for the factory [pipeline] the imports bound: the environment variable is
    assigned, then the pipeline is loaded and bound to [classifier]. *)
Definition module_init : py Transformers.Classifier :=
  _ ← environ_setitem "PYTORCH_CUDA_ALLOC_CONF" "";
  Transformers.load pipeline "sentiment-analysis"
    "distilbert-base-uncased-finetuned-sst-2-english".

End Startup.

Section Body.

Variable imports : Transformers.Importer.

(** The whole module body: the imports of lines 1-4 run first, in the
    environment the caller left, and only then the assignment of line 5 and
    the load of line 10. *)
Definition module_body : py Transformers.Classifier :=
  pipeline ← Transformers.import_ imports;
  module_init pipeline.

End Body.

End Api.

(** ** [feedback-classifier-gradio/app.py] *)

Module App.

Section WithClassifier.

(** The module global [classifier]. *)
Variable classifier : Transformers.Classifier.

Definition analyze_feedback (feedback : string) : py string :=
  results ← Transformers.call classifier feedback;
  result ← getitem0 results;
  let sentiment := capitalize (Transformers.label result) in
  let score := Transformers.score result in
  mret ("Sentiment: " +:+ sentiment +:+ newline +:+
        "Confidence: " +:+ format_4f score).

End WithClassifier.

Section Startup.

Variable pipeline : Transformers.Factory.

(** The statements of the module body that follow the imports, in order,
    for the factory [pipeline] the imports bound. *)
Definition module_init : py Transformers.Classifier :=
  _ ← environ_setitem "PYTORCH_CUDA_ALLOC_CONF" "";
  Transformers.load pipeline "sentiment-analysis"
    "distilbert-base-uncased-finetuned-sst-2-english".

End Startup.

Section Body.

Variable imports : Transformers.Importer.

(** The whole module body: the imports of lines 1-3 run first, in the
    environment the caller left, and only then the assignment of line 4 and
    the load of line 7. *)
Definition module_body : py Transformers.Classifier :=
  pipeline ← Transformers.import_ imports;
  module_init pipeline.

End Body.

End App.

(** ** A process handling requests

    The requests of one process, handled one after the other by the same
    handler on the same loaded classifier.  An exception ends the request
    that raised it, not the process. *)
Fixpoint serve {A B : Type} (handler : A → py B) (requests : list A) (s : process)
  : list (outcome B) * process :=
  match requests with
  | [] => ([], s)
  | x :: rest =>
      let '(o, s1) := handler x s in
      let '(os, s2) := serve handler rest s1 in
      (o :: os, s2)
  end.

(** ** Statements in the words of the specification *)

(** The code points [cs] are those of a text of characters below U+0100. *)
Definition latin1 (cs : list N) : Prop := Forall (λ c, (c < 256)%N) cs.

(** [s[:1].upper() + s[1:].lower()]: the first character uppercased, the
    rest lowercased. *)
Definition first_upper_rest_lower (s : string) : string :=
  match latin1_codepoints s with
  | Some cs => utf8 ((take 1 cs ≫= upper_cp) ++ (lower_cp <$> drop 1 cs))
  | None =>
      match s with
      | EmptyString => EmptyString
      | String b r => String (ascii_upper b) (ascii_lower_bytes r)
      end
  end.

(** Two strings are equal up to capitalization. *)
Definition same_up_to_case (a b : string) : Prop := lower a = lower b.

(** The two lines of the form: the sentiment, a line feed, the confidence. *)
Definition two_lines (shown conf : string) : string :=
  "Sentiment: " +:+ shown +:+ String "010"%char ("Confidence: " +:+ conf).

(** [n] ten-thousandths is a nearest 4-decimal approximation of [m * 2^e]:
    the two differ by at most half of [10^-4]. *)
Definition nearest_4dp (m : positive) (e n : Z) : Prop :=
  if 0 <=? e then n = Z.pos m * 2 ^ e * 10000
  else 2 * Z.abs (n * 2 ^ (- e) - Z.pos m * 10000) ≤ 2 ^ (- e).

(** The value of a decimal digit character. *)
Definition digit_value (c : ascii) : option Z :=
  let v := Z.of_N (N_of_ascii c) in
  if (48 <=? v) && (v <=? 57) then Some (v - 48) else None.

(** Exactly four decimal digits, read as a number below 10000. *)
Definition read_fraction4 (s : string) : option Z :=
  match s with
  | String a (String b (String c (String d EmptyString))) =>
      match digit_value a, digit_value b, digit_value c, digit_value d with
      | Some x, Some y, Some z, Some w => Some (1000 * x + 100 * y + 10 * z + w)
      | _, _, _, _ => None
      end
  | _ => None
  end.

(** A decimal numeral with at least one digit before the point and exactly
    four after it, read as a number of ten-thousandths. *)
Fixpoint read_decimal4 (seen : bool) (acc : Z) (s : string) : option Z :=
  match s with
  | EmptyString => None
  | String c r =>
      if Ascii.eqb c "."
      then if seen then (λ f, acc * 10000 + f) <$> read_fraction4 r else None
      else match digit_value c with
           | Some d => read_decimal4 true (10 * acc + d) r
           | None => None
           end
  end.

Definition read_fixed4 (s : string) : option Z := read_decimal4 false 0 s.

(** [txt] shows [x] rounded to 4 decimal places: after the sign it reads
    as a numeral with four decimals whose value is nearest to [x]. *)
Definition shows_rounded_4dp (x : float) (txt : string) : Prop :=
  match x with
  | S754_nan => txt = "nan"
  | S754_infinity s => txt = (if s then "-inf" else "inf")
  | S754_zero s =>
      ∃ body, txt = (if s then "-" else "") +:+ body ∧ read_fixed4 body = Some 0
  | S754_finite s m e =>
      ∃ body n, txt = (if s then "-" else "") +:+ body
                ∧ read_fixed4 body = Some n ∧ nearest_4dp m e n
  end.

(** A body the endpoint must refuse: malformed JSON, or JSON without the
    field [text], or JSON whose [text] is not a string. *)
Definition invalid_body (body : request_body) : Prop :=
  match body with
  | Malformed => True
  | Json j =>
      match json_field "text" j with
      | None => True
      | Some (JString _) => False
      | Some _ => True
      end
  end.

(** ** Sample data *)

(** The binary64 number nearest to 0.9876. *)
Definition score_0_9876 : float := S754_finite false 8895509983982204 (-53).

Definition negative_0_9876 : Transformers.Prediction :=
  {| Transformers.label := "NEGATIVE"; Transformers.score := score_0_9876 |}.

(** A classifier that answers every text with the same single prediction. *)
Definition constant_classifier (p : Transformers.Prediction) : Transformers.Classifier :=
  λ _ _, Returned [p].

(** A classifier that fails on every text. *)
Definition failing_classifier (e : exn) : Transformers.Classifier :=
  λ _ _, Raised e.

(** A classifier that returns no prediction. *)
Definition silent_classifier : Transformers.Classifier :=
  λ _ _, Returned [].

Definition fresh_process : process := Process ∅ [].

(** A prediction whose label begins with sharp s. *)
Definition eszett_0_9876 : Transformers.Prediction :=
  {| Transformers.label := "ßa"; Transformers.score := score_0_9876 |}.

Definition positive_0_9876 : Transformers.Prediction :=
  {| Transformers.label := "positive"; Transformers.score := score_0_9876 |}.



(** ** The life of a process

    The module body runs first; if it raises, the process ends before any
    request.  Otherwise the requests are handled, one after the other, by the
    handler with the classifier the module body loaded. *)
Definition lifecycle {A B : Type} (init : py Transformers.Classifier)
    (handler : Transformers.Classifier → A → py B) (requests : list A)
  : py (list (outcome B)) := λ s,
  match init s with
  | (Returned c, s1) =>
      let '(os, s2) := serve (handler c) requests s1 in (Returned os, s2)
  | (Raised e, s1) => (Raised e, s1)
  end.

(** [api.py] has no guard: whoever imports the module serves its [app]. *)
Definition api_server (pipeline : Transformers.Factory) (requests : list Api.Feedback)
  : py (list (outcome Api.Response)) :=
  lifecycle (Api.module_init pipeline) Api.analyze_feedback requests.

(** [app.py] ends with [if __name__ == "__main__": iface.launch()]: the
    module body always runs, the form is served only when the file is the
    program. *)
Definition app_script (pipeline : Transformers.Factory) (name : string)
    (submissions : list string) : py (list (outcome string)) :=
  if String.eqb name "__main__"
  then lifecycle (App.module_init pipeline) App.analyze_feedback submissions
  else (_ ← App.module_init pipeline; mret []).

(** A factory that always loads the given classifier, and one whose load
    fails. *)
Definition constant_factory (c : Transformers.Classifier) : Transformers.Factory :=
  λ _ _ _, Returned c.

Definition failing_factory (e : exn) : Transformers.Factory :=
  λ _ _ _, Raised e.

(** [x <= y] for two positive finite floats [m1 * 2^e1] and [m2 * 2^e2]. *)
Definition finite_le (m1 : positive) (e1 : Z) (m2 : positive) (e2 : Z) : Prop :=
  Z.pos m1 * 2 ^ (e1 - Z.min e1 e2) ≤ Z.pos m2 * 2 ^ (e2 - Z.min e1 e2).

(** ** The model on sample inputs *)

Example capitalize_samples :
  capitalize "NEGATIVE" = "Negative" ∧ capitalize "positive" = "Positive"
  ∧ capitalize "" = "" ∧ capitalize "1aB" = "1ab".
Proof. repeat split. Qed.

(** Beyond ASCII: the UTF-8 literal of sharp s is the code point 223, and
    capitalization follows the Unicode mappings. *)
Example capitalize_latin1_samples :
  latin1_codepoints "ßa" = Some [223%N; 97%N]
  ∧ capitalize "ßa" = "Ssa" ∧ capitalize "éLAN" = "Élan"
  ∧ capitalize "AÀB" = "Aàb" ∧ capitalize "ÿz" = "Ÿz"
  ∧ lower "ÀÉ×" = "àé×" ∧ upper "ßa" = "SSA".
Proof. repeat split. Qed.

Example read_fixed4_samples :
  read_fixed4 "0.9876" = Some 9876 ∧ read_fixed4 "12.0001" = Some 120001
  ∧ read_fixed4 ".1234" = None ∧ read_fixed4 "1.234" = None
  ∧ read_fixed4 "1.23456" = None ∧ read_fixed4 "0.0000" = Some 0.
Proof. repeat split. Qed.

(** 1/32 = 0.03125 and 3/32 = 0.09375 are ties: they go to the even
    neighbour.  Small negative numbers keep their sign. *)
Example format_4f_samples :
  format_4f score_0_9876 = "0.9876"
  ∧ format_4f (S754_finite false 1 (-5)) = "0.0312"
  ∧ format_4f (S754_finite false 3 (-5)) = "0.0938"
  ∧ format_4f (S754_finite true 1 (-20)) = "-0.0000"
  ∧ format_4f (S754_finite false 3 1) = "6.0000"
  ∧ format_4f (S754_zero false) = "0.0000".
Proof. repeat split; vm_compute; reflexivity. Qed.

Example in_unit_interval_samples :
  in_unit_interval score_0_9876 = true
  ∧ in_unit_interval (S754_finite false 1 0) = true
  ∧ in_unit_interval (S754_finite false 3 (-1)) = false
  ∧ in_unit_interval (S754_finite true 1 (-5)) = false
  ∧ in_unit_interval S754_nan = false.
Proof. repeat split. Qed.

Example json_get_last_wins :
  json_get "text" [("text", JString "a"); ("text", JString "b")] = Some (JString "b").
Proof. reflexivity. Qed.

(** ** What one handler call does *)

(** The API handler invokes the classifier once, on the text as given, and
    builds its reply from the first prediction. *)
Lemma api_analyze_feedback_run classifier fb s :
  Api.analyze_feedback classifier fb s =
  (match classifier (environ s) (Api.text fb) with
   | Returned (p :: _) =>
       Returned {| Api.feedback := Api.text fb;
                   Api.sentiment := Transformers.label p;
                   Api.score := Transformers.score p |}
   | Returned [] => Raised IndexError
   | Raised e => Raised e
   end, logged (Api.text fb) s).
Proof.
  unfold Api.analyze_feedback, mbind, py_bind, Transformers.call.
  destruct (classifier (environ s) (Api.text fb)) as [[|p rest]|e]; reflexivity.
Qed.

(** The same for the form handler. *)
Lemma app_analyze_feedback_run classifier text s :
  App.analyze_feedback classifier text s =
  (match classifier (environ s) text with
   | Returned (p :: _) =>
       Returned ("Sentiment: " +:+ capitalize (Transformers.label p) +:+ newline +:+
                 "Confidence: " +:+ format_4f (Transformers.score p))
   | Returned [] => Raised IndexError
   | Raised e => Raised e
   end, logged text s).
Proof.
  unfold App.analyze_feedback, mbind, py_bind, Transformers.call.
  destruct (classifier (environ s) text) as [[|p rest]|e]; reflexivity.
Qed.

(** ** Case conversion *)

(** A property of the code points below U+0100 can be checked on the 256
    values of a byte. *)
Lemma latin1_cases (P : N → Prop) :
  (∀ a : ascii, P (N_of_ascii a)) → ∀ c, (c < 256)%N → P c.
Proof. intros H c Hc. rewrite <- (N_ascii_embedding c Hc). apply H. Qed.

Lemma latin1_codepoints_utf8_char c s :
  (c < 256)%N →
  latin1_codepoints (utf8_char c +:+ s) = cons c <$> latin1_codepoints s.
Proof.
  revert c.
  apply (latin1_cases
           (λ c, latin1_codepoints (utf8_char c +:+ s) = cons c <$> latin1_codepoints s)).
  intros a. destruct a as [[] [] [] [] [] [] [] []]; reflexivity.
Qed.

(** Decoding undoes encoding. *)
Lemma latin1_codepoints_utf8 cs : latin1 cs → latin1_codepoints (utf8 cs) = Some cs.
Proof.
  induction 1 as [|c r Hc _ IH]; [reflexivity|].
  simpl. rewrite latin1_codepoints_utf8_char, IH by done. reflexivity.
Qed.

Lemma utf8_inj cs1 cs2 : latin1 cs1 → latin1 cs2 → utf8 cs1 = utf8 cs2 → cs1 = cs2.
Proof.
  intros H1 H2 Heq. apply (f_equal latin1_codepoints) in Heq.
  rewrite !latin1_codepoints_utf8 in Heq by done. by inversion Heq.
Qed.

Lemma title_upper_cp c : (c < 256)%N → c ≠ 223%N → title_cp c = upper_cp c.
Proof.
  revert c. apply (latin1_cases (λ c, c ≠ 223%N → title_cp c = upper_cp c)).
  intros a. destruct a as [[] [] [] [] [] [] [] []]; vm_compute; congruence.
Qed.

Lemma lower_cp_latin1 c : (c < 256)%N → (lower_cp c < 256)%N.
Proof.
  revert c. apply (latin1_cases (λ c, (lower_cp c < 256)%N)).
  intros a. destruct a as [[] [] [] [] [] [] [] []]; reflexivity.
Qed.


(** Title-casing sees a character through its lowercase. *)
Lemma title_cp_lower c : (c < 256)%N → title_cp (lower_cp c) = title_cp c.
Proof.
  revert c. apply (latin1_cases (λ c, title_cp (lower_cp c) = title_cp c)).
  intros a. destruct a as [[] [] [] [] [] [] [] []]; reflexivity.
Qed.


Lemma lower_latin1 cs : latin1 cs → lower (utf8 cs) = utf8 (lower_cp <$> cs).
Proof. intros H. unfold lower. by rewrite latin1_codepoints_utf8. Qed.

Lemma capitalize_latin1 c r :
  latin1 (c :: r) → capitalize (utf8 (c :: r)) = utf8 (title_cp c ++ (lower_cp <$> r)).
Proof. intros H. unfold capitalize. by rewrite latin1_codepoints_utf8. Qed.

Lemma latin1_fmap_lower cs : latin1 cs → latin1 (lower_cp <$> cs).
Proof.
  induction 1 as [|c r Hc _ IH]; [constructor|].
  constructor; [by apply lower_cp_latin1|exact IH].
Qed.



(** For a text of characters below U+0100 that does not begin with sharp s,
    capitalizing is uppercasing the first character and lowercasing the
    rest. *)
Lemma capitalize_first_upper_rest_lower cs :
  latin1 cs → head cs ≠ Some 223%N →
  capitalize (utf8 cs) = first_upper_rest_lower (utf8 cs).
Proof.
  intros Hcs Hhead. unfold capitalize, first_upper_rest_lower.
  rewrite latin1_codepoints_utf8 by done.
  destruct cs as [|c r]; [reflexivity|].
  inversion Hcs as [|? ? Hc Hr]; subst.
  cbn [take drop mbind list_bind]. rewrite app_nil_r.
  rewrite title_upper_cp by naive_solver. reflexivity.
Qed.

(** Labels that differ in case only are capitalized alike. *)
Lemma capitalize_respects_case cs1 cs2 :
  latin1 cs1 → latin1 cs2 →
  same_up_to_case (utf8 cs1) (utf8 cs2) →
  capitalize (utf8 cs1) = capitalize (utf8 cs2).
Proof.
  unfold same_up_to_case. intros H1 H2 Hlow.
  rewrite !lower_latin1 in Hlow by done.
  apply utf8_inj in Hlow; [|by apply latin1_fmap_lower..].
  destruct cs1 as [|c1 r1], cs2 as [|c2 r2]; try discriminate; [reflexivity|].
  rewrite !capitalize_latin1 by done.
  inversion H1; inversion H2; subst. cbn [fmap list_fmap] in Hlow.
  inversion Hlow as [[Hc Hr]].
  rewrite <- (title_cp_lower c1), <- (title_cp_lower c2), Hc by done.
  change (list_fmap N N lower_cp r1) with (lower_cp <$> r1) in Hr.
  change (list_fmap N N lower_cp r2) with (lower_cp <$> r2) in Hr.
  by rewrite Hr.
Qed.

(** ** Rounding to four decimals *)

Lemma round_half_even_nearest n d :
  0 < d → 2 * Z.abs (round_half_even n d * d - n) ≤ d.
Proof.
  intros Hd. unfold round_half_even.
  pose proof (Z.div_mod n d ltac:(lia)) as Hdm.
  pose proof (Z.mod_pos_bound n d Hd) as Hr.
  set (q := n / d) in *. set (r := n mod d) in *.
  destruct (Z.compare_spec (2 * r) d) as [He|Hl|Hg].
  - destruct (Z.even q); nia.
  - nia.
  - nia.
Qed.

Lemma scaled4_nearest m e : nearest_4dp m e (scaled4 m e).
Proof.
  unfold nearest_4dp, scaled4.
  destruct (0 <=? e) eqn:He; [reflexivity|].
  apply round_half_even_nearest.
  apply Z.pow_pos_nonneg; lia.
Qed.

Lemma scaled4_nonneg m e : 0 ≤ scaled4 m e.
Proof.
  unfold scaled4, round_half_even. destruct (0 <=? e) eqn:He.
  - apply Z.leb_le in He. assert (0 < 2 ^ e) by (apply Z.pow_pos_nonneg; lia). nia.
  - apply Z.leb_gt in He. assert (0 < 2 ^ (- e)) by (apply Z.pow_pos_nonneg; lia).
    assert (0 ≤ Z.pos m * 10000 / 2 ^ (- e)) by (apply Z.div_pos; lia).
    destruct (_ ?= _); [destruct (Z.even _)| |]; lia.
Qed.

(** *** Reading back what [fixed4] prints *)

Lemma digit_value_pretty x :
  (x < 10)%N → digit_value (pretty_N_char x) = Some (Z.of_N x)
               ∧ Ascii.eqb (pretty_N_char x) "." = false.
Proof.
  intros Hx. destruct x as [|p]; [done|].
  do 4 (destruct p as [p|p|]; try (vm_compute; done));
    vm_compute in Hx; destruct p; discriminate.
Qed.

Lemma read_decimal4_pretty_go x :
  ∃ k : Z, 0 ≤ k ∧ ∀ seen acc t,
    read_decimal4 seen acc (pretty_N_go x t)
    = read_decimal4 (seen || (0 <? x)%N) (acc * 10 ^ k + Z.of_N x) t.
Proof.
  induction (N.lt_wf_0 x) as [x _ IH].
  destruct (decide (0 < x)%N) as [Hx|Hx].
  - destruct (IH (x `div` 10)%N) as (k & Hk & Hread); [by apply N.div_lt|].
    exists (k + 1). split; [lia|]. intros seen acc t.
    rewrite pretty_N_go_step, Hread by done.
    destruct (digit_value_pretty (x `mod` 10)%N) as [Hd Hp];
      [by apply N.mod_lt|].
    cbn [read_decimal4]. rewrite Hp, Hd.
    replace (seen || (0 <? x)%N) with true
      by (symmetry; apply orb_true_iff; right; by apply N.ltb_lt).
    f_equal. rewrite Z.pow_add_r by lia.
    pose proof (N.div_mod x 10 ltac:(done)) as Hdm.
    assert (Z.of_N x = 10 * Z.of_N (x `div` 10) + Z.of_N (x `mod` 10)) by lia.
    lia.
  - assert (x = 0%N) as -> by lia.
    exists 0. split; [done|]. intros seen acc t.
    rewrite pretty_N_go_0. f_equal; [by rewrite orb_false_r|simpl; lia].
Qed.

Lemma pretty_N_go_app x s t : pretty_N_go x s +:+ t = pretty_N_go x (s +:+ t).
Proof.
  revert s. induction (N.lt_wf_0 x) as [x _ IH]; intros s.
  destruct (decide (0 < x)%N) as [Hx|Hx].
  - rewrite (pretty_N_go_step x s), (pretty_N_go_step x (s +:+ t)) by done.
    rewrite IH by (by apply N.div_lt). reflexivity.
  - assert (x = 0%N) as -> by lia. by rewrite !pretty_N_go_0.
Qed.

Lemma read_decimal4_pretty (x : N) t :
  read_decimal4 false 0 (pretty x +:+ t) = read_decimal4 true (Z.of_N x) t.
Proof.
  unfold pretty, pretty_N. destruct (decide (x = 0%N)) as [->|Hx]; [reflexivity|].
  rewrite pretty_N_go_app. simpl.
  destruct (read_decimal4_pretty_go x) as (k & Hk & ->).
  replace (0 <? x)%N with true by (symmetry; apply N.ltb_lt; lia).
  reflexivity.
Qed.

Lemma digit_value_digit d : 0 ≤ d ≤ 9 → digit_value (digit d) = Some d.
Proof.
  intros Hd.
  assert (d = 0 ∨ d = 1 ∨ d = 2 ∨ d = 3 ∨ d = 4 ∨ d = 5 ∨ d = 6 ∨ d = 7
          ∨ d = 8 ∨ d = 9) as Hcases by lia.
  repeat (destruct Hcases as [->|Hcases]; [reflexivity|]). by subst.
Qed.

(** The numeral [fixed4] prints for [n] reads back as [n]. *)
Lemma read_fixed4_fixed4 n : 0 ≤ n → read_fixed4 (fixed4 n) = Some n.
Proof.
  intros Hn. unfold read_fixed4, fixed4.
  rewrite read_decimal4_pretty.
  change ("." +:+ ?t) with (String "." t).
  cbn [read_decimal4]. change (Ascii.eqb "." ".") with true. cbn [read_fraction4].
  assert (∀ k, 0 ≤ n / k mod 10 ≤ 9) as Hd.
  { intros k. pose proof (Z.mod_pos_bound (n / k) 10 ltac:(lia)). lia. }
  assert (0 ≤ n mod 10 ≤ 9) as Hd0.
  { pose proof (Z.mod_pos_bound n 10 ltac:(lia)). lia. }
  rewrite !digit_value_digit by auto. simpl. f_equal.
  rewrite Z2N.id by (apply Z.div_pos; lia).
  replace (n / 1000) with (n / 10 / 10 / 10) by (rewrite !Z.div_div by lia; reflexivity).
  replace (n / 100) with (n / 10 / 10) by (rewrite !Z.div_div by lia; reflexivity).
  replace (n / 10000) with (n / 10 / 10 / 10 / 10)
    by (rewrite !Z.div_div by lia; reflexivity).
  Z.to_euclidean_division_equations. lia.
Qed.

Lemma format_4f_rounds x : shows_rounded_4dp x (format_4f x).
Proof.
  destruct x as [[]|[]| |s m e]; simpl; try reflexivity.
  - by exists "0.0000".
  - by exists "0.0000".
  - exists (fixed4 (scaled4 m e)), (scaled4 m e).
    split; [by destruct s|].
    split; [apply read_fixed4_fixed4, scaled4_nonneg|apply scaled4_nearest].
Qed.

(** The four characters after the point are the decimal digits of the
    fractional part. *)
Lemma fixed4_fraction n :
  n mod 10000 =
  1000 * (n / 1000 mod 10) + 100 * (n / 100 mod 10) + 10 * (n / 10 mod 10) + n mod 10.
Proof.
  replace (n / 1000) with (n / 10 / 10 / 10) by (rewrite !Z.div_div by lia; reflexivity).
  replace (n / 100) with (n / 10 / 10) by (rewrite !Z.div_div by lia; reflexivity).
  Z.to_euclidean_division_equations. lia.
Qed.

(** ** The HTTP handler *)

(** C1. Whenever the handler of POST /analyze answers a request (a
    validated body [fb] with its string field [text]), the [feedback] field of
    the answer is the submitted text, character for character. *)
Theorem api_feedback_verbatim classifier fb s r s' :
  Api.analyze_feedback classifier fb s = (Returned r, s') →
  Api.feedback r = Api.text fb.
Proof.
  rewrite api_analyze_feedback_run.
  destruct (classifier (environ s) (Api.text fb)) as [[|p rest]|e];
    intros H; inversion H; reflexivity.
Qed.

Lemma api_feedback_verbatim_witness :
  let fb := {| Api.text := "I love this product!" |} in
  let r := {| Api.feedback := "I love this product!";
              Api.sentiment := "NEGATIVE"; Api.score := score_0_9876 |} in
  Api.analyze_feedback (constant_classifier negative_0_9876) fb fresh_process
    = (Returned r, logged "I love this product!" fresh_process)
  ∧ Api.feedback r = Api.text fb.
Proof.
  intros fb r. split; [reflexivity|].
  apply (api_feedback_verbatim (constant_classifier negative_0_9876) fb
           fresh_process r (logged "I love this product!" fresh_process)).
  reflexivity.
Defined.

(** C2. For a non-empty text on which the pipeline returns a prediction whose
    label is POSITIVE or NEGATIVE and whose score lies in [0,1], the handler of
    POST /analyze returns a response; its [sentiment] is one of the two labels
    and its [score] lies in [0,1]. *)
Theorem api_label_and_score_in_range classifier fb s p rest :
  Api.text fb ≠ "" →
  classifier (environ s) (Api.text fb) = Returned (p :: rest) →
  Transformers.label p = "POSITIVE" ∨ Transformers.label p = "NEGATIVE" →
  in_unit_interval (Transformers.score p) = true →
  ∃ r, Api.analyze_feedback classifier fb s = (Returned r, logged (Api.text fb) s)
       ∧ (Api.sentiment r = "POSITIVE" ∨ Api.sentiment r = "NEGATIVE")
       ∧ in_unit_interval (Api.score r) = true.
Proof.
  intros _ Hcall Hlabel Hscore.
  eexists. rewrite api_analyze_feedback_run, Hcall.
  split; [reflexivity|]. simpl. auto.
Qed.

Lemma api_label_and_score_in_range_witness :
  ∃ r, Api.analyze_feedback (constant_classifier negative_0_9876)
         {| Api.text := "This is terrible." |} fresh_process
       = (Returned r, logged "This is terrible." fresh_process)
       ∧ (Api.sentiment r = "POSITIVE" ∨ Api.sentiment r = "NEGATIVE")
       ∧ in_unit_interval (Api.score r) = true.
Proof.
  apply (api_label_and_score_in_range (constant_classifier negative_0_9876)
           {| Api.text := "This is terrible." |} fresh_process negative_0_9876 []).
  - discriminate.
  - reflexivity.
  - right. reflexivity.
  - reflexivity.
Defined.

(** ** The form handler *)

(** C3 (amended). When the pipeline's first prediction has a label [l] of
    characters below U+0100 that does not begin with sharp s, and score [x],
    the form shows exactly "Sentiment: " followed by [l] with its first
    character uppercased and the rest lowercased, a line feed, and
    "Confidence: " followed by [x] rounded to 4 decimal places; for NEGATIVE
    and 0.9876 that is "Sentiment: Negative", line feed,
    "Confidence: 0.9876". *)
Theorem form_output_format classifier text s p rest cs :
  classifier (environ s) text = Returned (p :: rest) →
  Transformers.label p = utf8 cs →
  latin1 cs →
  head cs ≠ Some 223%N →
  (∃ conf,
     App.analyze_feedback classifier text s =
       (Returned (two_lines (first_upper_rest_lower (Transformers.label p)) conf),
        logged text s)
     ∧ shows_rounded_4dp (Transformers.score p) conf)
  ∧ (p = negative_0_9876 →
     App.analyze_feedback classifier text s =
       (Returned ("Sentiment: Negative" +:+ String "010"%char "Confidence: 0.9876"),
        logged text s)).
Proof.
  intros Hcall Hlabel Hcs Hhead. rewrite app_analyze_feedback_run, Hcall. split.
  - exists (format_4f (Transformers.score p)).
    rewrite Hlabel, capitalize_first_upper_rest_lower by done.
    split; [reflexivity|apply format_4f_rounds].
  - intros ->. reflexivity.
Qed.

Lemma form_output_format_witness :
  (∃ conf,
     App.analyze_feedback (constant_classifier positive_0_9876) "I love this product!"
       fresh_process
     = (Returned ("Sentiment: Positive" +:+ String "010"%char ("Confidence: " +:+ conf)),
        logged "I love this product!" fresh_process)
     ∧ shows_rounded_4dp score_0_9876 conf)
  ∧ App.analyze_feedback (constant_classifier negative_0_9876) "This is terrible."
      fresh_process
    = (Returned ("Sentiment: Negative" +:+ String "010"%char "Confidence: 0.9876"),
       logged "This is terrible." fresh_process).
Proof.
  split.
  - apply (form_output_format (constant_classifier positive_0_9876)
             "I love this product!" fresh_process positive_0_9876 []
             [112; 111; 115; 105; 116; 105; 118; 101]%N);
      [reflexivity|reflexivity|repeat constructor|discriminate].
  - apply (form_output_format (constant_classifier negative_0_9876)
             "This is terrible." fresh_process negative_0_9876 []
             [78; 69; 71; 65; 84; 73; 86; 69]%N);
      [reflexivity|reflexivity|repeat constructor|discriminate|reflexivity].
Defined.

(** C3, as first stated, fails for a label that begins with sharp s: for
    the label "ßa" the form shows "Ssa", the titlecase, where uppercasing the
    first character and lowercasing the rest gives "SSa". *)
Lemma form_output_format_counterexample :
  App.analyze_feedback (constant_classifier eszett_0_9876) "x" fresh_process
    = (Returned ("Sentiment: Ssa" +:+ String "010"%char "Confidence: 0.9876"),
       logged "x" fresh_process)
  ∧ first_upper_rest_lower "ßa" = "SSa"
  ∧ ¬ ∃ conf,
        App.analyze_feedback (constant_classifier eszett_0_9876) "x" fresh_process
        = (Returned (two_lines (first_upper_rest_lower "ßa") conf),
           logged "x" fresh_process).
Proof.
  split; [reflexivity|]. split; [reflexivity|].
  intros [conf Hconf]. vm_compute in Hconf. discriminate.
Qed.

(** ** Request validation *)

Lemma Feedback_validate_Some j fb :
  Api.Feedback_validate j = Some fb ↔ json_field "text" j = Some (JString (Api.text fb)).
Proof.
  unfold Api.Feedback_validate. destruct fb as [t]. simpl.
  destruct (json_field "text" j) as [[]|]; split; intros H; inversion H; reflexivity.
Qed.

Lemma Feedback_validate_None j :
  Api.Feedback_validate j = None ↔ ∀ t, json_field "text" j ≠ Some (JString t).
Proof.
  unfold Api.Feedback_validate.
  destruct (json_field "text" j) as [[]|]; split; try congruence; try discriminate.
  intros H. exfalso. eapply H. reflexivity.
Qed.

(** C4. A POST /analyze request whose body is malformed JSON, or lacks the
    field [text], or carries a [text] that is not a string, is answered with
    status 422, a client error; the answer is a normal return of the endpoint
    and the process state is untouched, so the pipeline was not invoked. *)
Theorem post_analyze_rejects_invalid_body classifier body s :
  invalid_body body →
  Api.post_analyze classifier body s = (Returned Api.HTTP_422, s)
  ∧ Api.status_code Api.HTTP_422 = 422
  ∧ 400 ≤ Api.status_code Api.HTTP_422 < 500
  ∧ pipeline_calls (snd (Api.post_analyze classifier body s)) = pipeline_calls s.
Proof.
  intros Hbad.
  assert (Api.post_analyze classifier body s = (Returned Api.HTTP_422, s)) as Hrun.
  { destruct body as [|j]; [reflexivity|].
    unfold Api.post_analyze, Api.Feedback_validate. simpl in Hbad.
    destruct (json_field "text" j) as [[]|]; try reflexivity. contradiction. }
  rewrite Hrun. simpl. repeat split; lia.
Qed.

Lemma post_analyze_rejects_invalid_body_witness :
  let body := Json (JObject [("message", JString "I love this product!")]) in
  let c := constant_classifier negative_0_9876 in
  Api.post_analyze c body fresh_process = (Returned Api.HTTP_422, fresh_process)
  ∧ Api.status_code Api.HTTP_422 = 422
  ∧ 400 ≤ Api.status_code Api.HTTP_422 < 500
  ∧ pipeline_calls (snd (Api.post_analyze c body fresh_process))
    = pipeline_calls fresh_process.
Proof.
  intros body c. apply (post_analyze_rejects_invalid_body c body fresh_process).
  exact I.
Defined.

(** ** Both handlers *)

(** The reply of either handler is a function of the classifier, the text and
    the environment of the process; the log of earlier calls plays no part. *)
Lemma api_reply_ignores_log classifier fb s1 s2 :
  environ s1 = environ s2 →
  fst (Api.analyze_feedback classifier fb s1) = fst (Api.analyze_feedback classifier fb s2).
Proof. intros Henv. rewrite !api_analyze_feedback_run. simpl. by rewrite Henv. Qed.

Lemma app_reply_ignores_log classifier text s1 s2 :
  environ s1 = environ s2 →
  fst (App.analyze_feedback classifier text s1) = fst (App.analyze_feedback classifier text s2).
Proof. intros Henv. rewrite !app_analyze_feedback_run. simpl. by rewrite Henv. Qed.

Lemma api_keeps_environ classifier fb s :
  environ (snd (Api.analyze_feedback classifier fb s)) = environ s.
Proof. by rewrite api_analyze_feedback_run. Qed.

Lemma app_keeps_environ classifier text s :
  environ (snd (App.analyze_feedback classifier text s)) = environ s.
Proof. by rewrite app_analyze_feedback_run. Qed.

(** In a process whose handler leaves the environment alone and answers by
    the environment and the request only, the i-th outcome is the answer to
    the i-th request. *)
Lemma serve_lookup {A B : Type} (handler : A → py B) :
  (∀ x s1 s2, environ s1 = environ s2 → fst (handler x s1) = fst (handler x s2)) →
  (∀ x s, environ (snd (handler x s)) = environ s) →
  ∀ requests s i x,
    requests !! i = Some x →
    fst (serve handler requests s) !! i = Some (fst (handler x s)).
Proof.
  intros Hreply Henv requests.
  induction requests as [|a rest IH]; intros s i x Hi; [by destruct i|].
  simpl. destruct (handler a s) as [o s1] eqn:Ha.
  destruct (serve handler rest s1) as [os s2] eqn:Hrest.
  destruct i as [|i]; simpl in *.
  - inversion Hi; subst. by rewrite Ha.
  - specialize (IH s1 i x Hi). rewrite Hrest in IH. simpl in IH. rewrite IH.
    f_equal. apply Hreply.
    change s1 with (snd (o, s1)). rewrite <- Ha. apply Henv.
Qed.

(** C5. With the loaded classifier a fixed function, any two requests of one
    process that carry the same text get the same outcome, label and score
    included; this holds for the HTTP handler and for the form handler. *)
Theorem handlers_deterministic classifier (texts : list string) s i j text :
  texts !! i = Some text →
  texts !! j = Some text →
  (∃ o, fst (serve (Api.analyze_feedback classifier) (Api.Build_Feedback <$> texts) s) !! i
          = Some o
        ∧ fst (serve (Api.analyze_feedback classifier) (Api.Build_Feedback <$> texts) s) !! j
          = Some o)
  ∧ (∃ o, fst (serve (App.analyze_feedback classifier) texts s) !! i = Some o
          ∧ fst (serve (App.analyze_feedback classifier) texts s) !! j = Some o).
Proof.
  intros Hi Hj. split.
  - exists (fst (Api.analyze_feedback classifier (Api.Build_Feedback text) s)).
    split; apply serve_lookup;
      auto using api_reply_ignores_log, api_keeps_environ;
      rewrite list_lookup_fmap; [rewrite Hi|rewrite Hj]; reflexivity.
  - exists (fst (App.analyze_feedback classifier text s)).
    split; apply serve_lookup;
      auto using app_reply_ignores_log, app_keeps_environ.
Qed.

Lemma handlers_deterministic_witness :
  let texts := ["This is terrible."; "I love this product!"; "This is terrible."] in
  let c := constant_classifier negative_0_9876 in
  (∃ o, fst (serve (Api.analyze_feedback c) (Api.Build_Feedback <$> texts) fresh_process) !! 0%nat
          = Some o
        ∧ fst (serve (Api.analyze_feedback c) (Api.Build_Feedback <$> texts) fresh_process) !! 2%nat
          = Some o)
  ∧ (∃ o, fst (serve (App.analyze_feedback c) texts fresh_process) !! 0%nat = Some o
          ∧ fst (serve (App.analyze_feedback c) texts fresh_process) !! 2%nat = Some o).
Proof.
  intros texts c.
  apply (handlers_deterministic c texts fresh_process 0%nat 2%nat "This is terrible.");
    reflexivity.
Defined.




(** ** Process startup *)

Lemma api_module_init_run pipeline s :
  Api.module_init pipeline s =
  let s' := Process (<["PYTORCH_CUDA_ALLOC_CONF" := ""]> (environ s)) (pipeline_calls s) in
  (pipeline (environ s') "sentiment-analysis"
     "distilbert-base-uncased-finetuned-sst-2-english", s').
Proof. reflexivity. Qed.

Lemma app_module_init_run pipeline s :
  App.module_init pipeline s =
  let s' := Process (<["PYTORCH_CUDA_ALLOC_CONF" := ""]> (environ s)) (pipeline_calls s) in
  (pipeline (environ s') "sentiment-analysis"
     "distilbert-base-uncased-finetuned-sst-2-english", s').
Proof. reflexivity. Qed.








(** ** Failures of the pipeline *)

(** C8. If the pipeline raises [e] on a text, each handler ends with that
    same exception and no value, after exactly one invocation of the pipeline
    on that text: nothing is caught, retried or substituted. *)
Theorem pipeline_exception_propagates classifier text s e :
  classifier (environ s) text = Raised e →
  Api.analyze_feedback classifier {| Api.text := text |} s = (Raised e, logged text s)
  ∧ App.analyze_feedback classifier text s = (Raised e, logged text s)
  ∧ pipeline_calls (logged text s) = (pipeline_calls s ++ [text])%list.
Proof.
  intros Hcall.
  rewrite api_analyze_feedback_run, app_analyze_feedback_run. simpl.
  rewrite Hcall. auto.
Qed.

Lemma pipeline_exception_propagates_witness :
  let e := Exn "RuntimeError" "The size of tensor a must match the size of tensor b" in
  Api.analyze_feedback (failing_classifier e) {| Api.text := "x" |} fresh_process
    = (Raised e, logged "x" fresh_process)
  ∧ App.analyze_feedback (failing_classifier e) "x" fresh_process
    = (Raised e, logged "x" fresh_process)
  ∧ pipeline_calls (logged "x" fresh_process)
    = (pipeline_calls fresh_process ++ ["x"])%list.
Proof.
  intros e.
  apply (pipeline_exception_propagates (failing_classifier e) "x" fresh_process e).
  reflexivity.
Defined.

(** ** Edge cases *)

(** C9. The empty string is accepted at both interfaces.  The body
    [{"text": ""}] passes validation, which fails only when the field is absent
    or not a string; each handler invokes the pipeline on the text exactly as
    received, whatever its length, and on the empty text its outcome is that
    of the pipeline on the empty text. *)
Theorem empty_text_accepted classifier s :
  Api.Feedback_validate (JObject [("text", JString "")]) = Some {| Api.text := "" |}
  ∧ (∀ j, Api.Feedback_validate j = None ↔ ∀ t, json_field "text" j ≠ Some (JString t))
  ∧ snd (Api.post_analyze classifier (Json (JObject [("text", JString "")])) s)
    = logged "" s
  ∧ (∀ text, snd (Api.analyze_feedback classifier {| Api.text := text |} s) = logged text s
             ∧ snd (App.analyze_feedback classifier text s) = logged text s)
  ∧ fst (Api.analyze_feedback classifier {| Api.text := "" |} s)
    = match classifier (environ s) "" with
      | Returned (p :: _) =>
          Returned {| Api.feedback := "";
                      Api.sentiment := Transformers.label p;
                      Api.score := Transformers.score p |}
      | Returned [] => Raised IndexError
      | Raised e => Raised e
      end
  ∧ fst (App.analyze_feedback classifier "" s)
    = match classifier (environ s) "" with
      | Returned (p :: _) =>
          Returned ("Sentiment: " +:+ capitalize (Transformers.label p) +:+ newline +:+
                    "Confidence: " +:+ format_4f (Transformers.score p))
      | Returned [] => Raised IndexError
      | Raised e => Raised e
      end.
Proof.
  split; [reflexivity|]. split; [apply Feedback_validate_None|].
  split.
  - change (Api.post_analyze classifier (Json (JObject [("text", JString "")])))
      with (r ← Api.analyze_feedback classifier {| Api.text := "" |};
            mret (Api.HTTP_200 r) : py Api.http_response).
    unfold mbind at 1, py_bind at 1. rewrite api_analyze_feedback_run.
    cbn [Api.text].
    destruct (classifier (environ s) "") as [[|p rest]|e]; reflexivity.
  - split.
    + intros text. by rewrite api_analyze_feedback_run, app_analyze_feedback_run.
    + by rewrite api_analyze_feedback_run, app_analyze_feedback_run.
Qed.

(** C10. Each handler takes element 0 of the list the pipeline returns and
    nothing else: its reply is built from the first prediction alone, an empty
    list makes it raise IndexError, and it returns normally only if the list
    was non-empty. *)
Theorem first_result_only classifier text s :
  (∀ p rest, classifier (environ s) text = Returned (p :: rest) →
     fst (Api.analyze_feedback classifier {| Api.text := text |} s)
       = Returned {| Api.feedback := text;
                     Api.sentiment := Transformers.label p;
                     Api.score := Transformers.score p |}
     ∧ fst (App.analyze_feedback classifier text s)
       = Returned ("Sentiment: " +:+ capitalize (Transformers.label p) +:+ newline +:+
                   "Confidence: " +:+ format_4f (Transformers.score p)))
  ∧ (classifier (environ s) text = Returned [] →
     fst (Api.analyze_feedback classifier {| Api.text := text |} s) = Raised IndexError
     ∧ fst (App.analyze_feedback classifier text s) = Raised IndexError)
  ∧ (∀ r, fst (Api.analyze_feedback classifier {| Api.text := text |} s) = Returned r →
          ∃ p rest, classifier (environ s) text = Returned (p :: rest))
  ∧ (∀ out, fst (App.analyze_feedback classifier text s) = Returned out →
            ∃ p rest, classifier (environ s) text = Returned (p :: rest)).
Proof.
  rewrite api_analyze_feedback_run, app_analyze_feedback_run. simpl.
  case_eq (classifier (environ s) text); [intros [|p rest]|intros e]; intros Hcall.
  - (* the empty list *)
    split; [intros p rest; discriminate|].
    split; [auto|]. split; intros ?; discriminate.
  - (* a first prediction [p] *)
    split; [intros p' rest' Heq; inversion Heq; subst; auto|].
    split; [discriminate|]. split; intros ? _; eauto.
  - (* the pipeline raised *)
    split; [intros p rest; discriminate|].
    split; [discriminate|]. split; intros ?; discriminate.
Qed.

Lemma first_result_only_witness :
  fst (Api.analyze_feedback silent_classifier {| Api.text := "ok" |} fresh_process)
    = Raised IndexError
  ∧ fst (App.analyze_feedback silent_classifier "ok" fresh_process) = Raised IndexError.
Proof.
  apply (first_result_only silent_classifier "ok" fresh_process). reflexivity.
Defined.

(** ** Beyond single requests *)

(** The state a run of requests ends in, for a handler that logs one
    invocation per request and does nothing else to the process. *)
Lemma serve_state {A B : Type} (handler : A → py B) (key : A → string) :
  (∀ x s, snd (handler x s) = logged (key x) s) →
  ∀ requests s,
    snd (serve handler requests s)
    = Process (environ s) (pipeline_calls s ++ (key <$> requests)).
Proof.
  intros Hlog requests.
  induction requests as [|a rest IH]; intros s; simpl.
  - destruct s as [env calls]. simpl. by rewrite app_nil_r.
  - specialize (Hlog a s). destruct (handler a s) as [o s1]. simpl in Hlog. subst s1.
    specialize (IH (logged (key a) s)).
    destruct (serve handler rest (logged (key a) s)) as [os s2]. simpl in *.
    rewrite IH. by rewrite <- app_assoc.
Qed.

Lemma api_state_after classifier fb s :
  snd (Api.analyze_feedback classifier fb s) = logged (Api.text fb) s.
Proof. by rewrite api_analyze_feedback_run. Qed.

Lemma app_state_after classifier text s :
  snd (App.analyze_feedback classifier text s) = logged text s.
Proof. by rewrite app_analyze_feedback_run. Qed.

(** X1. Whatever the requests and their outcomes, a run of either handler
    invokes the pipeline exactly once per request, on the texts in the order
    received, and leaves the environment as it found it: nothing is cached,
    batched, skipped or retried. *)
Theorem one_pipeline_call_per_request classifier (texts : list string) s :
  snd (serve (Api.analyze_feedback classifier) (Api.Build_Feedback <$> texts) s)
    = Process (environ s) (pipeline_calls s ++ texts)
  ∧ snd (serve (App.analyze_feedback classifier) texts s)
    = Process (environ s) (pipeline_calls s ++ texts).
Proof.
  split.
  - rewrite (serve_state _ Api.text) by apply api_state_after.
    rewrite <- list_fmap_compose.
    change (Api.text ∘ Api.Build_Feedback) with (@id string).
    by rewrite list_fmap_id.
  - rewrite (serve_state _ id) by apply app_state_after.
    by rewrite list_fmap_id.
Qed.

(** A run of the whole process whose module body succeeds. *)
Lemma lifecycle_run {A B : Type} (init : py Transformers.Classifier)
    (handler : Transformers.Classifier → A → py B) (key : A → string)
    (requests : list A) s c s1 :
  init s = (Returned c, s1) →
  (∀ x s, handler c x s = (fst (handler c x (Process (environ s) [])), logged (key x) s)) →
  ∃ outs,
    lifecycle init handler requests s
      = (Returned outs, Process (environ s1) (pipeline_calls s1 ++ (key <$> requests)))
    ∧ ∀ i x, requests !! i = Some x → outs !! i = Some (fst (handler c x s1)).
Proof.
  intros Hinit Hrun. unfold lifecycle. rewrite Hinit.
  pose proof (serve_state (handler c) key) as Hstate.
  pose proof (serve_lookup (handler c)) as Hlookup.
  destruct (serve (handler c) requests s1) as [outs s2] eqn:Hserve.
  exists outs. split.
  - f_equal. change s2 with (snd (outs, s2)). rewrite <- Hserve.
    apply Hstate. intros x s0. by rewrite Hrun.
  - intros i x Hi. change outs with (fst (outs, s2)). rewrite <- Hserve.
    apply Hlookup; [| |exact Hi].
    + intros y t1 t2 Henv. rewrite (Hrun y t1), (Hrun y t2). simpl. by rewrite Henv.
    + intros y t. by rewrite Hrun.
Qed.

Lemma api_handler_factors c fb s :
  Api.analyze_feedback c fb s
  = (fst (Api.analyze_feedback c fb (Process (environ s) [])), logged (Api.text fb) s).
Proof. by rewrite !api_analyze_feedback_run. Qed.

Lemma app_handler_factors c text s :
  App.analyze_feedback c text s
  = (fst (App.analyze_feedback c text (Process (environ s) [])), logged text s).
Proof. by rewrite !app_analyze_feedback_run. Qed.

(** X2. When loading the pipeline fails, the module body of either front-end
    ends with that exception: no request is handled and the pipeline is never
    invoked, but the environment variable has already been overwritten. *)
Theorem startup_failure_is_fatal pipeline env calls e requests name submissions :
  pipeline (<["PYTORCH_CUDA_ALLOC_CONF" := ""]> env) "sentiment-analysis"
    "distilbert-base-uncased-finetuned-sst-2-english" = Raised e →
  api_server pipeline requests (Process env calls)
    = (Raised e, Process (<["PYTORCH_CUDA_ALLOC_CONF" := ""]> env) calls)
  ∧ app_script pipeline name submissions (Process env calls)
    = (Raised e, Process (<["PYTORCH_CUDA_ALLOC_CONF" := ""]> env) calls).
Proof.
  intros Hload. split.
  - unfold api_server, lifecycle. rewrite api_module_init_run. simpl. by rewrite Hload.
  - unfold app_script. destruct (String.eqb name "__main__").
    + unfold lifecycle. rewrite app_module_init_run. simpl. by rewrite Hload.
    + unfold mbind, py_bind. rewrite app_module_init_run. simpl. by rewrite Hload.
Qed.

Lemma startup_failure_is_fatal_witness :
  let e := Exn "OSError" "We couldn't connect to 'https://huggingface.co'" in
  api_server (failing_factory e) [ {| Api.text := "I love this product!" |} ]
    (Process {["PYTORCH_CUDA_ALLOC_CONF" := "max_split_size_mb:128"]} [])
    = (Raised e, Process (<["PYTORCH_CUDA_ALLOC_CONF" := ""]>
                            {["PYTORCH_CUDA_ALLOC_CONF" := "max_split_size_mb:128"]}) [])
  ∧ app_script (failing_factory e) "__main__" ["I love this product!"]
      (Process {["PYTORCH_CUDA_ALLOC_CONF" := "max_split_size_mb:128"]} [])
    = (Raised e, Process (<["PYTORCH_CUDA_ALLOC_CONF" := ""]>
                            {["PYTORCH_CUDA_ALLOC_CONF" := "max_split_size_mb:128"]}) []).
Proof.
  intros e.
  apply (startup_failure_is_fatal (failing_factory e)
           {["PYTORCH_CUDA_ALLOC_CONF" := "max_split_size_mb:128"]} [] e).
  reflexivity.
Defined.

(** X3. When loading succeeds, the whole life of either front-end is fixed
    by the classifier loaded under the overwritten environment: request
    number [i] gets the answer the handler would give as the very first
    request after startup, so no request influences another; the process ends
    with the variable still empty and one logged invocation per request. *)
Theorem requests_are_independent pipeline env calls c requests submissions :
  pipeline (<["PYTORCH_CUDA_ALLOC_CONF" := ""]> env) "sentiment-analysis"
    "distilbert-base-uncased-finetuned-sst-2-english" = Returned c →
  let started := Process (<["PYTORCH_CUDA_ALLOC_CONF" := ""]> env) calls in
  (∃ outs,
     api_server pipeline requests (Process env calls)
       = (Returned outs,
          Process (environ started) (calls ++ (Api.text <$> requests)))
     ∧ ∀ i fb, requests !! i = Some fb →
               outs !! i = Some (fst (Api.analyze_feedback c fb started)))
  ∧ (∃ outs,
       app_script pipeline "__main__" submissions (Process env calls)
         = (Returned outs, Process (environ started) (calls ++ submissions))
       ∧ ∀ i text, submissions !! i = Some text →
                   outs !! i = Some (fst (App.analyze_feedback c text started))).
Proof.
  intros Hload started. split.
  - apply (lifecycle_run (Api.module_init pipeline) Api.analyze_feedback Api.text
             requests (Process env calls) c started).
    + rewrite api_module_init_run. simpl. by rewrite Hload.
    + apply api_handler_factors.
  - destruct (lifecycle_run (App.module_init pipeline) App.analyze_feedback id
                submissions (Process env calls) c started) as (outs & Hrun & Houts).
    + rewrite app_module_init_run. simpl. by rewrite Hload.
    + apply app_handler_factors.
    + exists outs. rewrite list_fmap_id in Hrun. by split.
Qed.

Lemma requests_are_independent_witness :
  let c := constant_classifier negative_0_9876 in
  let started := Process (<["PYTORCH_CUDA_ALLOC_CONF" := ""]> ∅) [] in
  (∃ outs,
     api_server (constant_factory c) [ {| Api.text := "a" |}; {| Api.text := "b" |} ]
       (Process ∅ [])
       = (Returned outs, Process (environ started)
                           ([] ++ (Api.text <$> [ {| Api.text := "a" |}; {| Api.text := "b" |} ])))
     ∧ ∀ i fb, [ {| Api.text := "a" |}; {| Api.text := "b" |} ] !! i = Some fb →
               outs !! i = Some (fst (Api.analyze_feedback c fb started)))
  ∧ (∃ outs,
       app_script (constant_factory c) "__main__" ["a"; "b"] (Process ∅ [])
         = (Returned outs, Process (environ started) ([] ++ ["a"; "b"]))
       ∧ ∀ i text, ["a"; "b"] !! i = Some text →
                   outs !! i = Some (fst (App.analyze_feedback c text started))).
Proof.
  intros c started.
  apply (requests_are_independent (constant_factory c) ∅ [] c
           [ {| Api.text := "a" |}; {| Api.text := "b" |} ] ["a"; "b"]).
  reflexivity.
Defined.

(** X4. Imported under any other name than [__main__], [app.py] still runs
    its module body (the variable is overwritten and the pipeline loaded, or
    the load error raised) but serves nothing: no submission reaches the
    pipeline. *)
Theorem app_import_serves_nothing pipeline name submissions env calls :
  name ≠ "__main__" →
  app_script pipeline name submissions (Process env calls)
  = (match pipeline (<["PYTORCH_CUDA_ALLOC_CONF" := ""]> env) "sentiment-analysis"
             "distilbert-base-uncased-finetuned-sst-2-english" with
     | Returned _ => Returned []
     | Raised e => Raised e
     end, Process (<["PYTORCH_CUDA_ALLOC_CONF" := ""]> env) calls).
Proof.
  intros Hname. unfold app_script.
  destruct (String.eqb_spec name "__main__") as [->|_]; [done|].
  unfold mbind, py_bind. rewrite app_module_init_run. simpl.
  by destruct (pipeline _ _ _).
Qed.

Lemma app_import_serves_nothing_witness :
  app_script (constant_factory silent_classifier) "app" ["This is terrible."]
    (Process ∅ [])
  = (Returned [], Process (<["PYTORCH_CUDA_ALLOC_CONF" := ""]> ∅) []).
Proof.
  apply (app_import_serves_nothing (constant_factory silent_classifier) "app"
           ["This is terrible."] ∅ []).
  discriminate.
Defined.

(** ** What the form shows *)

(** X5. For labels of characters below U+0100, the form normalises the
    case of the label and the API does not: two classifiers whose first
    predictions carry the same score and labels equal up to case give the same
    form output, whereas the API answers are the same only if the labels are
    the same. *)
Theorem form_normalises_label_case c1 c2 text s p1 p2 rest1 rest2 cs1 cs2 :
  c1 (environ s) text = Returned (p1 :: rest1) →
  c2 (environ s) text = Returned (p2 :: rest2) →
  Transformers.label p1 = utf8 cs1 → latin1 cs1 →
  Transformers.label p2 = utf8 cs2 → latin1 cs2 →
  same_up_to_case (Transformers.label p1) (Transformers.label p2) →
  Transformers.score p1 = Transformers.score p2 →
  App.analyze_feedback c1 text s = App.analyze_feedback c2 text s
  ∧ (Api.analyze_feedback c1 {| Api.text := text |} s
       = Api.analyze_feedback c2 {| Api.text := text |} s
     ↔ Transformers.label p1 = Transformers.label p2).
Proof.
  intros H1 H2 Hl1 Hcs1 Hl2 Hcs2 Hcase Hscore.
  rewrite !app_analyze_feedback_run, !api_analyze_feedback_run. simpl.
  rewrite H1, H2, Hscore.
  assert (capitalize (Transformers.label p1) = capitalize (Transformers.label p2)) as ->.
  { rewrite Hl1, Hl2 in *. by apply capitalize_respects_case. }
  split; [reflexivity|]. split.
  - intros Heq. by inversion Heq.
  - by intros ->.
Qed.

Lemma form_normalises_label_case_witness :
  let upper_case := constant_classifier negative_0_9876 in
  let lower_case := constant_classifier
    {| Transformers.label := "negative"; Transformers.score := score_0_9876 |} in
  App.analyze_feedback upper_case "This is terrible." fresh_process
    = App.analyze_feedback lower_case "This is terrible." fresh_process
  ∧ (Api.analyze_feedback upper_case {| Api.text := "This is terrible." |} fresh_process
       = Api.analyze_feedback lower_case {| Api.text := "This is terrible." |} fresh_process
     ↔ "NEGATIVE" = "negative").
Proof.
  intros upper_case lower_case.
  apply (form_normalises_label_case upper_case lower_case "This is terrible."
           fresh_process negative_0_9876
           {| Transformers.label := "negative"; Transformers.score := score_0_9876 |}
           [] [] [78; 69; 71; 65; 84; 73; 86; 69]%N
           [110; 101; 103; 97; 116; 105; 118; 101]%N);
    [reflexivity|reflexivity|reflexivity|repeat constructor|reflexivity
    |repeat constructor|reflexivity|reflexivity].
Defined.

Lemma round_half_even_bounds n d k :
  0 < d → 0 ≤ n ≤ k * d → 0 ≤ round_half_even n d ≤ k.
Proof.
  intros Hd Hn. unfold round_half_even.
  pose proof (Z.div_mod n d ltac:(lia)) as Hdm.
  pose proof (Z.mod_pos_bound n d Hd) as Hr.
  set (q := n / d) in *. set (r := n mod d) in *.
  assert (0 ≤ q) by nia.
  assert (q ≤ k) by nia.
  destruct (Z.compare_spec (2 * r) d) as [He|Hl|Hg]; [destruct (Z.even q)| |]; nia.
Qed.

Lemma scaled4_in_unit m e :
  in_unit_interval (S754_finite false m e) = true → 0 ≤ scaled4 m e ≤ 10000.
Proof.
  unfold in_unit_interval, scaled4. destruct (0 <=? e) eqn:He; intros Hle.
  - apply Z.leb_le in Hle, He.
    assert (0 < 2 ^ e) by (apply Z.pow_pos_nonneg; lia). nia.
  - apply Z.leb_le in Hle. apply Z.leb_gt in He.
    apply round_half_even_bounds; [apply Z.pow_pos_nonneg; lia|lia].
Qed.

Lemma digit_range n k : 0 ≤ n / k mod 10 ≤ 9.
Proof. pose proof (Z.mod_pos_bound (n / k) 10 ltac:(lia)). lia. Qed.

Lemma fixed4_below_one n :
  0 ≤ n < 10000 →
  fixed4 n = String "0" (String "." (String (digit (n / 1000 mod 10))
              (String (digit (n / 100 mod 10)) (String (digit (n / 10 mod 10))
                (String (digit (n mod 10)) EmptyString))))).
Proof.
  intros Hn. unfold fixed4. rewrite (Z.div_small n 10000) by lia. reflexivity.
Qed.

(** X6. For a first prediction whose score lies in [0,1] the form's second
    line is "Confidence: " followed by "1.0000", or by "0." and exactly four
    decimal digits (or by "-0.0000" for the negative zero): never more than
    one digit before the point. *)
Theorem form_confidence_of_valid_score classifier text s p rest :
  classifier (environ s) text = Returned (p :: rest) →
  in_unit_interval (Transformers.score p) = true →
  ∃ conf,
    fst (App.analyze_feedback classifier text s)
      = Returned ("Sentiment: " +:+ capitalize (Transformers.label p) +:+ newline +:+
                  "Confidence: " +:+ conf)
    ∧ (conf = "-0.0000" ∨ conf = "1.0000"
       ∨ ∃ d1 d2 d3 d4,
           (0 ≤ d1 ≤ 9 ∧ 0 ≤ d2 ≤ 9 ∧ 0 ≤ d3 ≤ 9 ∧ 0 ≤ d4 ≤ 9)
           ∧ conf = String "0" (String "." (String (digit d1) (String (digit d2)
                      (String (digit d3) (String (digit d4) EmptyString)))))).
Proof.
  intros Hcall Hunit. exists (format_4f (Transformers.score p)).
  rewrite app_analyze_feedback_run, Hcall. split; [reflexivity|].
  destruct (Transformers.score p) as [[]|[]| |[] m e]; try discriminate.
  - by left.
  - right; right. exists 0, 0, 0, 0. split; [lia|reflexivity].
  - pose proof (scaled4_in_unit m e Hunit) as Hn. simpl.
    destruct (decide (scaled4 m e = 10000)) as [->|Hne]; [right; by left|].
    right; right.
    exists (scaled4 m e / 1000 mod 10), (scaled4 m e / 100 mod 10),
           (scaled4 m e / 10 mod 10), (scaled4 m e mod 10).
    split.
    + pose proof (digit_range (scaled4 m e) 1000). pose proof (digit_range (scaled4 m e) 100).
      pose proof (digit_range (scaled4 m e) 10).
      pose proof (Z.mod_pos_bound (scaled4 m e) 10 ltac:(lia)). lia.
    + apply fixed4_below_one. lia.
Qed.

Lemma form_confidence_of_valid_score_witness :
  ∃ conf,
    fst (App.analyze_feedback (constant_classifier negative_0_9876) "This is terrible."
           fresh_process)
      = Returned ("Sentiment: " +:+ capitalize "NEGATIVE" +:+ newline +:+
                  "Confidence: " +:+ conf)
    ∧ (conf = "-0.0000" ∨ conf = "1.0000"
       ∨ ∃ d1 d2 d3 d4,
           (0 ≤ d1 ≤ 9 ∧ 0 ≤ d2 ≤ 9 ∧ 0 ≤ d3 ≤ 9 ∧ 0 ≤ d4 ≤ 9)
           ∧ conf = String "0" (String "." (String (digit d1) (String (digit d2)
                      (String (digit d3) (String (digit d4) EmptyString)))))).
Proof.
  apply (form_confidence_of_valid_score (constant_classifier negative_0_9876)
           "This is terrible." fresh_process negative_0_9876 []); reflexivity.
Defined.

(** ** The order of scores *)

Lemma round_half_even_scale k n d :
  0 < k → 0 < d → round_half_even (k * n) (k * d) = round_half_even n d.
Proof.
  intros Hk Hd. unfold round_half_even.
  rewrite Z.div_mul_cancel_l, Z.mul_mod_distr_l by lia.
  replace (2 * (k * (n mod d))) with (k * (2 * (n mod d))) by ring.
  destruct (Z.compare_spec (k * (2 * (n mod d))) (k * d)),
           (Z.compare_spec (2 * (n mod d)) d); try reflexivity; nia.
Qed.

Lemma round_half_even_exact n d : 0 < d → round_half_even (n * d) d = n.
Proof.
  intros Hd. unfold round_half_even.
  rewrite Z.div_mul, Z.mod_mul by lia. simpl.
  by destruct d.
Qed.

Lemma round_half_even_mono n1 n2 d :
  0 < d → n1 ≤ n2 → round_half_even n1 d ≤ round_half_even n2 d.
Proof.
  intros Hd Hle. unfold round_half_even.
  pose proof (Z.div_mod n1 d ltac:(lia)) as Hdm1.
  pose proof (Z.div_mod n2 d ltac:(lia)) as Hdm2.
  pose proof (Z.mod_pos_bound n1 d Hd) as Hr1.
  pose proof (Z.mod_pos_bound n2 d Hd) as Hr2.
  set (q1 := n1 / d) in *. set (r1 := n1 mod d) in *.
  set (q2 := n2 / d) in *. set (r2 := n2 mod d) in *.
  assert (q1 < q2 ∨ q1 = q2 ∧ r1 ≤ r2) as [Hlt|[Heq Hr]] by nia.
  - destruct (Z.compare_spec (2 * r1) d), (Z.compare_spec (2 * r2) d);
      destruct (Z.even q1), (Z.even q2); lia.
  - clearbody q1 q2. subst q2.
    destruct (Z.compare_spec (2 * r1) d), (Z.compare_spec (2 * r2) d);
      destruct (Z.even q1); lia.
Qed.

(** [scaled4] over any common denominator [2^(-E)]. *)
Lemma scaled4_common m e E :
  E ≤ e → E ≤ 0 →
  scaled4 m e = round_half_even (Z.pos m * 2 ^ (e - E) * 10000) (2 ^ (- E)).
Proof.
  intros HE HE0. unfold scaled4. destruct (0 <=? e) eqn:He.
  - apply Z.leb_le in He.
    replace (e - E) with (e + - E) by lia. rewrite Z.pow_add_r by lia.
    replace (Z.pos m * (2 ^ e * 2 ^ (- E)) * 10000)
      with (Z.pos m * 2 ^ e * 10000 * 2 ^ (- E)) by ring.
    symmetry. apply round_half_even_exact, Z.pow_pos_nonneg; lia.
  - apply Z.leb_gt in He.
    replace (- E) with ((e - E) + - e) by lia. rewrite Z.pow_add_r by lia.
    replace (Z.pos m * 2 ^ (e - E) * 10000)
      with (2 ^ (e - E) * (Z.pos m * 10000)) by ring.
    symmetry. apply round_half_even_scale; apply Z.pow_pos_nonneg; lia.
Qed.

Lemma scaled4_mono m1 e1 m2 e2 :
  finite_le m1 e1 m2 e2 → scaled4 m1 e1 ≤ scaled4 m2 e2.
Proof.
  unfold finite_le. intros Hle.
  set (M := Z.min e1 e2) in *. set (E := Z.min M 0).
  rewrite (scaled4_common m1 e1 E), (scaled4_common m2 e2 E) by lia.
  apply round_half_even_mono; [apply Z.pow_pos_nonneg; lia|].
  replace (e1 - E) with ((e1 - M) + (M - E)) by lia.
  replace (e2 - E) with ((e2 - M) + (M - E)) by lia.
  rewrite !Z.pow_add_r by lia.
  assert (0 < 2 ^ (M - E)) by (apply Z.pow_pos_nonneg; lia).
  nia.
Qed.

(** X7. The form never inverts two positive scores: if [x1 <= x2], the
    number of ten-thousandths shown for [x1] is at most the number shown for
    [x2]. *)
Theorem form_confidence_monotone c1 c2 text s l1 l2 m1 e1 m2 e2 rest1 rest2 :
  c1 (environ s) text
    = Returned ({| Transformers.label := l1;
                   Transformers.score := S754_finite false m1 e1 |} :: rest1) →
  c2 (environ s) text
    = Returned ({| Transformers.label := l2;
                   Transformers.score := S754_finite false m2 e2 |} :: rest2) →
  finite_le m1 e1 m2 e2 →
  ∃ n1 n2,
    fst (App.analyze_feedback c1 text s)
      = Returned ("Sentiment: " +:+ capitalize l1 +:+ newline +:+
                  "Confidence: " +:+ fixed4 n1)
    ∧ fst (App.analyze_feedback c2 text s)
      = Returned ("Sentiment: " +:+ capitalize l2 +:+ newline +:+
                  "Confidence: " +:+ fixed4 n2)
    ∧ 0 ≤ n1 ≤ n2.
Proof.
  intros H1 H2 Hle. exists (scaled4 m1 e1), (scaled4 m2 e2).
  rewrite !app_analyze_feedback_run, H1, H2.
  repeat split; [|by apply scaled4_mono].
  pose proof (scaled4_nearest m1 e1) as Hn. unfold nearest_4dp in Hn.
  destruct (0 <=? e1) eqn:He.
  - apply Z.leb_le in He. rewrite Hn.
    assert (0 < 2 ^ e1) by (apply Z.pow_pos_nonneg; lia). nia.
  - apply Z.leb_gt in He.
    assert (0 < 2 ^ (- e1)) by (apply Z.pow_pos_nonneg; lia). nia.
Qed.

Lemma form_confidence_monotone_witness :
  ∃ n1 n2,
    fst (App.analyze_feedback
           (constant_classifier {| Transformers.label := "POSITIVE";
                                   Transformers.score := S754_finite false 1 (-5) |})
           "fine" fresh_process)
      = Returned ("Sentiment: " +:+ capitalize "POSITIVE" +:+ newline +:+
                  "Confidence: " +:+ fixed4 n1)
    ∧ fst (App.analyze_feedback (constant_classifier negative_0_9876) "fine" fresh_process)
      = Returned ("Sentiment: " +:+ capitalize "NEGATIVE" +:+ newline +:+
                  "Confidence: " +:+ fixed4 n2)
    ∧ 0 ≤ n1 ≤ n2.
Proof.
  apply (form_confidence_monotone
           (constant_classifier {| Transformers.label := "POSITIVE";
                                   Transformers.score := S754_finite false 1 (-5) |})
           (constant_classifier negative_0_9876) "fine" fresh_process
           "POSITIVE" "NEGATIVE" 1 (-5) 8895509983982204 (-53) [] []).
  - reflexivity.
  - reflexivity.
  - unfold finite_le. vm_compute. discriminate.
Defined.
